(** * StackInspector: frame-chain walking, name resolution, function
      synthesis and traceback classification

    A shallow embedding of the class [StackInspector] of
    [notebooks/StackInspector.ipynb]: Python frames are a linked structure
    ([f_back]), name spaces are finite maps from strings to values, the
    class-level dictionary [_generated_function_cache] and the warnings
    issued through [warnings.warn] are threaded through an explicit state,
    and Python exceptions are the error half of a result type. *)

From stdpp Require Import gmap strings list fin_maps.
From Stdlib Require Import ZArith.

#[local] Set Warnings "-register-all".
Local Open Scope Z_scope.

(** ** Python values *)

(** A class, as far as [isinstance], [callable] and the synthesized functions
    need it: its name, the names of its ancestors (its method resolution
    order without the class itself) and whether it defines [__call__]. *)
Record PyClass := MkClass {
  cls_name : string;
  cls_ancestors : list string;
  cls_defines_call : bool
}.

(** A code object: [co_name] is what the inspector reads; [co_freevars] is
    what the runtime's function constructor looks at. *)
Record CodeType := MkCode {
  co_name : string;
  co_freevars : list string
}.

(** Objects carry their identity ([oid], what Python's [is] compares)
    next to their contents. *)
Inductive Value :=
| VNone
| VBool (b : bool)
| VInt (n : Z)
| VStr (s : string)
| VClass (c : PyClass)
| VInstance (oid : nat) (cls : PyClass) (truth : bool)
| VFunction (oid : nat) (fn_name : string) (fn_code : CodeType)
            (fn_globals : gmap string Value)
| VBoundMethod (oid : nat) (im_self : Value) (im_func : string)
| VOther (descr : string).

(** A frame object with the attributes the inspector reads. *)
Inductive FrameType := MkFrame {
  f_locals : gmap string Value;
  f_globals : gmap string Value;
  f_code : CodeType;
  f_lineno : Z;
  f_back : option FrameType
}.

(** A traceback object: [tb_next] leads towards the place of the raise. *)
Inductive TracebackType := MkTraceback {
  tb_frame : FrameType;
  tb_lineno : Z;
  tb_next : option TracebackType
}.

#[global] Instance PyClass_eq_dec : EqDecision PyClass.
Proof. solve_decision. Defined.

Abbreviation dict := (gmap string Value).

(** [d.get(key)]: the value bound to [key], [None] when there is none. *)
Definition dict_get (d : dict) (key : string) : Value :=
  default VNone (d !! key).

(** [key in d] *)
Definition dict_contains (d : dict) (key : string) : bool :=
  bool_decide (is_Some (d !! key)).

Definition builtin_class (name : string) : PyClass :=
  MkClass name ["object"%string] false.

(** [v.__class__] *)
Definition class_of (v : Value) : PyClass :=
  match v with
  | VNone => builtin_class "NoneType"
  | VBool _ => MkClass "bool" ["int"; "object"]%string false
  | VInt _ => builtin_class "int"
  | VStr _ => builtin_class "str"
  | VClass _ => builtin_class "type"
  | VInstance _ cls _ => cls
  | VFunction _ _ _ _ => builtin_class "function"
  | VBoundMethod _ _ _ => builtin_class "method"
  | VOther descr => builtin_class descr
  end.

(** [issubclass(c, d)]: [d] is [c] or one of its ancestors. *)
Definition issubclass (c d : PyClass) : bool :=
  bool_decide (cls_name d ∈ cls_name c :: cls_ancestors c).

(** [isinstance(v, c)] *)
Definition isinstance (v : Value) (c : PyClass) : bool :=
  issubclass (class_of v) c.

(** [bool(v)], the truth value tested by [if v] and [v and ...]. An instance
    carries the outcome of its [__bool__] / [__len__]. *)
Definition truthy (v : Value) : bool :=
  match v with
  | VNone => false
  | VBool b => b
  | VInt n => negb (n =? 0)
  | VStr s => negb (String.eqb s "")
  | VInstance _ _ truth => truth
  | VClass _ | VFunction _ _ _ _ | VBoundMethod _ _ _ | VOther _ => true
  end.

(** [callable(v)] *)
Definition callable (v : Value) : bool :=
  match v with
  | VClass _ | VFunction _ _ _ _ | VBoundMethod _ _ _ => true
  | VInstance _ cls _ => cls_defines_call cls
  | VNone | VBool _ | VInt _ | VStr _ | VOther _ => false
  end.

(** [a is b] on objects *)
Definition object_id (v : Value) : option nat :=
  match v with
  | VInstance oid _ _ | VFunction oid _ _ _ | VBoundMethod oid _ _ => Some oid
  | _ => None
  end.

(** ** Exceptions *)

(** An exception deriving from [Exception]: [exc_type] is
    [type(exc).__name__], [exc_str] is [str(exc)], and [exc_is_TypeError]
    says whether an [except TypeError] clause catches it. *)
Record PyExc := MkExc {
  exc_type : string;
  exc_is_TypeError : bool;
  exc_str : string
}.

Inductive result (A : Type) :=
| Ok (a : A)
| Raise (e : PyExc).
Arguments Ok {A} a.
Arguments Raise {A} e.

(** What evaluating [None.f_locals] raises. *)
Definition AttributeError_f_locals : PyExc :=
  MkExc "AttributeError" false "'NoneType' object has no attribute 'f_locals'".

(** ** Walking the frame chain *)

(** [our_frame(self, frame)] on a frame object *)
Definition our_frame (self : Value) (frame : FrameType) : bool :=
  isinstance (dict_get (f_locals frame) "self") (class_of self).

(** The loop of [caller_frame]: [while self.our_frame(frame): frame =
    frame.f_back]. When [f_back] is [None] the next test is
    [self.our_frame(None)], which raises on [None.f_locals]. *)
Fixpoint caller_frame_loop (self : Value) (frame : FrameType) : result FrameType :=
  if our_frame self frame then
    match f_back frame with
    | Some back => caller_frame_loop self back
    | None => Raise AttributeError_f_locals
    end
  else Ok frame.

(** [traceback.walk_tb(tb)]: the pairs [(tb.tb_frame, tb.tb_lineno)] along
    [tb_next]. *)
Fixpoint walk_tb_from (tb : TracebackType) : list (FrameType * Z) :=
  (tb_frame tb, tb_lineno tb) ::
  match tb_next tb with
  | Some next => walk_tb_from next
  | None => []
  end.

Definition walk_tb (tb : option TracebackType) : list (FrameType * Z) :=
  match tb with
  | Some tb => walk_tb_from tb
  | None => []
  end.

(** The loop of [search_frame]: [item] is the global binding of [name],
    overwritten by the local one; the frame matches when [item and
    callable(item)]. The result pairs the frame with the item, both [None]
    when the chain is exhausted. *)
Definition frame_item (name : string) (frame : FrameType) : Value :=
  let item := VNone in
  let item := match f_globals frame !! name with Some v => v | None => item end in
  let item := match f_locals frame !! name with Some v => v | None => item end in
  item.

Fixpoint search_frame_loop (name : string) (frame : FrameType)
  : option FrameType * Value :=
  let item := frame_item name frame in
  if truthy item && callable item then (Some frame, item)
  else match f_back frame with
       | Some back => search_frame_loop name back
       | None => (None, VNone)
       end.

(** The body of the loop of [is_internal_error] over the walked entries. *)
Fixpoint any_our_frame (self : Value) (entries : list (FrameType * Z)) : bool :=
  match entries with
  | [] => false
  | (frame, lineno) :: rest =>
      if our_frame self frame then true else any_our_frame self rest
  end.

(** ** Process state: the function cache, object allocation, warnings *)

Record State := MkState {
  _generated_function_cache : gmap (string * Z) Value;
  next_oid : nat;
  warnings_issued : list string
}.

Definition M (A : Type) : Type := State -> result A * State.

Definition ret {A} (a : A) : M A := fun st => (Ok a, st).

Definition bind {A B} (m : M A) (k : A -> M B) : M B :=
  fun st => match m st with
            | (Ok a, st') => k a st'
            | (Raise e, st') => (Raise e, st')
            end.

Definition lift {A} (r : result A) : M A := fun st => (r, st).

Notation "'let*' x := m 'in' k" := (bind m (fun x => k))
  (at level 10, x name, m at level 100, k at level 200, only parsing).
Notation "'do' m 'then' k" := (bind m (fun _ => k))
  (at level 10, m at level 100, k at level 200, only parsing).

(** [warnings.warn(message)] under the default filters: the warning is
    recorded and execution goes on. *)
Definition warn (message : string) : M unit :=
  fun st => (Ok tt, MkState (_generated_function_cache st) (next_oid st)
                            (warnings_issued st ++ [message])).

(** A fresh object identity. *)
Definition new_object : M nat :=
  fun st => (Ok (next_oid st), MkState (_generated_function_cache st)
                                       (S (next_oid st)) (warnings_issued st)).

Definition cache_lookup (key : string * Z) : M (option Value) :=
  fun st => (Ok (_generated_function_cache st !! key), st).

Definition cache_store (key : string * Z) (v : Value) : M unit :=
  fun st => (Ok tt, MkState (<[key := v]> (_generated_function_cache st))
                            (next_oid st) (warnings_issued st)).

(** [try: m except TypeError: h1 except Exception as exc: h2 exc] *)
Definition try_except {A} (m : M A) (on_TypeError : M A)
    (on_Exception : PyExc -> M A) : M A :=
  fun st => match m st with
            | (Ok a, st') => (Ok a, st')
            | (Raise exc, st') =>
                if exc_is_TypeError exc then on_TypeError st'
                else on_Exception exc st'
            end.

(** What a local variable holding a frame (or [None]) looks like as a value. *)
Definition frame_value (frame : option FrameType) : Value :=
  match frame with
  | Some _ => VOther "frame"
  | None => VNone
  end.

(** The key of [_generated_function_cache] for a frame. *)
Definition cache_key (frame : FrameType) : string * Z :=
  (co_name (f_code frame), f_lineno frame).

(** ** The methods of [StackInspector] *)

Section StackInspector.

(** The globals of the module that defines [StackInspector]: the
    [f_globals] of the frames of its methods. *)
Variable module_globals : dict.

(** The runtime's function constructor, [types.FunctionType]: whether
    [FunctionType(code, globals=globals, name=name)] raises, and what. *)
Variable FunctionType_raises : CodeType -> dict -> string -> option PyExc.

Definition FunctionType (code : CodeType) (globals : dict) (name : string)
  : M Value :=
  match FunctionType_raises code globals name with
  | Some exc => lift (Raise exc)
  | None => let* oid := new_object in
            ret (VFunction oid name code globals)
  end.

(** The frame of a method of [StackInspector] called on [self] from the
    frame [back], with its local variables at the current line. *)
Definition method_frame (self : Value) (method : string) (lineno : Z)
    (locals : dict) (back : option FrameType) : FrameType :=
  MkFrame (<["self" := self]> locals) module_globals (MkCode method [])
          lineno back.

(** [caller_frame(self)], called from the frame [back];
    [inspect.currentframe()] is the frame of [caller_frame] itself. *)
Definition caller_frame (self : Value) (back : option FrameType)
  : result FrameType :=
  let frame := method_frame self "caller_frame" 183 ∅ back in
  caller_frame_loop self frame.

(** [self.unknown]: a bound method object, made on access. *)
Definition unknown (self : Value) : M Value :=
  let* oid := new_object in
  ret (VBoundMethod oid self "unknown").

Definition caller_globals (self : Value) (back : option FrameType)
  : result dict :=
  let me := method_frame self "caller_globals" 211 ∅ back in
  match caller_frame self (Some me) with
  | Ok frame => Ok (f_globals frame)
  | Raise e => Raise e
  end.

Definition caller_locals (self : Value) (back : option FrameType)
  : result dict :=
  let me := method_frame self "caller_locals" 215 ∅ back in
  match caller_frame self (Some me) with
  | Ok frame => Ok (f_locals frame)
  | Raise e => Raise e
  end.

(** [search_frame(self, name, frame)], called from the frame [back] *)
Definition search_frame (self : Value) (name : string)
    (frame : option FrameType) (back : option FrameType)
  : result (option FrameType * Value) :=
  match frame with
  | Some frame => Ok (search_frame_loop name frame)
  | None =>
      let me := method_frame self "search_frame" 268
                  (<["name" := VStr name]> (<["frame" := VNone]> ∅)) back in
      match caller_frame self (Some me) with
      | Ok frame => Ok (search_frame_loop name frame)
      | Raise e => Raise e
      end
  end.

(** [search_func(self, name, frame)], called from the frame [back] *)
Definition search_func (self : Value) (name : string)
    (frame : option FrameType) (back : option FrameType) : result Value :=
  let me := method_frame self "search_func" 286
              (<["name" := VStr name]>
                 (<["frame" := frame_value frame]> ∅)) back in
  match search_frame self name frame (Some me) with
  | Ok (frame, func) => Ok func
  | Raise e => Raise e
  end.

(** [create_function(self, frame)] *)
Definition create_function (self : Value) (frame : FrameType) : M Value :=
  let name := co_name (f_code frame) in
  let cache_key := cache_key frame in
  let* cached := cache_lookup cache_key in
  match cached with
  | Some generated_function => ret generated_function
  | None =>
      let* generated_function :=
        try_except
          (FunctionType (f_code frame) (f_globals frame) name)
          (unknown self)
          (fun exc =>
             do warn ("Couldn't create function for " +:+ name +:+ " " +:+
                      " (" +:+ exc_type exc +:+ ": " +:+ exc_str exc +:+ ")")
             then unknown self) in
      do cache_store cache_key generated_function then
      ret generated_function
  end.

(** [caller_function(self)], called from the frame [back] *)
Definition caller_function (self : Value) (back : option FrameType)
  : M Value :=
  let me := fun locals => method_frame self "caller_function" 351 locals back in
  let* frame := lift (caller_frame self (Some (me ∅))) in
  let name := co_name (f_code frame) in
  let locals := <["frame" := frame_value (Some frame)]>
                  (<["name" := VStr name]> ∅) in
  let* func := lift (search_func self name None (Some (me locals))) in
  if truthy func then ret func
  else
    do (if negb (String.prefix "<" name)
        then warn ("Couldn't find " +:+ name +:+ " in caller")
        else ret tt)
    then create_function self frame.

(** [caller_location(self)], called from the frame [back] *)
Definition caller_location (self : Value) (back : option FrameType)
  : M (Value * Z) :=
  let me := method_frame self "caller_location" 243 ∅ back in
  let* func := caller_function self (Some me) in
  let* frame := lift (caller_frame self (Some me)) in
  ret (func, f_lineno frame).

(** [is_internal_error(self, exc_tp, exc_value, exc_traceback)] *)
Definition is_internal_error (self : Value) (exc_tp : Value)
    (exc_value : Value) (exc_traceback : option TracebackType) : bool :=
  if negb (truthy exc_tp) then false
  else any_our_frame self (walk_tb exc_traceback).

End StackInspector.

Arguments caller_frame module_globals self back : simpl never.

(** A run of calls of [create_function], each given by its receiver and its
    frame; the state after the last one. *)
Fixpoint create_functions
    (FunctionType_raises : CodeType -> dict -> string -> option PyExc)
    (calls : list (Value * FrameType)) (st : State) : State :=
  match calls with
  | [] => st
  | (self, frame) :: rest =>
      create_functions FunctionType_raises rest
        (create_function FunctionType_raises self frame st).2
  end.

(** [caller_function] as the specification words it, for comparison: the
    name is searched from the frame that called the caller frame, one level
    further out, and not from the caller frame. *)
Definition caller_function_one_level_out (module_globals : dict)
    (FunctionType_raises : CodeType -> dict -> string -> option PyExc)
    (self : Value) (back : option FrameType) : M Value :=
  let* frame := lift (caller_frame module_globals self back) in
  let name := co_name (f_code frame) in
  let func := match f_back frame with
              | Some outer => (search_frame_loop name outer).2
              | None => VNone
              end in
  if truthy func then ret func
  else
    do (if negb (String.prefix "<" name)
        then warn ("Couldn't find " +:+ name +:+ " in caller")
        else ret tt)
    then create_function FunctionType_raises self frame.

(** ** Frame chains as lists *)

(** The frames reachable from [frame] through [f_back], innermost first. *)
Fixpoint chain (frame : FrameType) : list FrameType :=
  frame :: match f_back frame with
           | Some back => chain back
           | None => []
           end.

Definition frames_from (frame : option FrameType) : list FrameType :=
  match frame with
  | Some frame => chain frame
  | None => []
  end.

(** The last frame of the chain: the one without [f_back]. *)
Fixpoint outermost (frame : FrameType) : FrameType :=
  match f_back frame with
  | Some back => outermost back
  | None => frame
  end.

(** Induction along [f_back]. *)
Fixpoint FrameType_back_ind (P : FrameType -> Prop)
    (Hroot : forall l g c n, P (MkFrame l g c n None))
    (Hcall : forall l g c n back, P back -> P (MkFrame l g c n (Some back)))
    (frame : FrameType) : P frame :=
  match frame with
  | MkFrame l g c n None => Hroot l g c n
  | MkFrame l g c n (Some back) =>
      Hcall l g c n back (FrameType_back_ind P Hroot Hcall back)
  end.

(** A frame outside the inspecting class: [our_frame] fails. *)
Definition external (self : Value) (frame : FrameType) : bool :=
  negb (our_frame self frame).

(** The test of [search_frame] on the selected item. *)
Definition frame_matches (name : string) (frame : FrameType) : bool :=
  truthy (frame_item name frame) && callable (frame_item name frame).

(** Every cached object can be called. *)
Definition cache_callable (st : State) : Prop :=
  map_Forall (fun _ v => callable v = true) (_generated_function_cache st).

(** [v.__name__] *)
Definition getattr_name (v : Value) : result string :=
  match v with
  | VFunction _ name _ _ => Ok name
  | VBoundMethod _ _ name => Ok name
  | VClass c => Ok (cls_name c)
  | _ => Raise (MkExc "AttributeError" false
                  ("'" +:+ cls_name (class_of v) +:+
                   "' object has no attribute '__name__'"))
  end.

(** What the use of a name that is not bound raises. *)
Definition NameError (name : string) : PyExc :=
  MkExc "NameError" false ("name '" +:+ name +:+ "' is not defined").

(** What calling an object that cannot be called raises. *)
Definition TypeError_not_callable (v : Value) : PyExc :=
  MkExc "TypeError" true
        ("'" +:+ cls_name (class_of v) +:+ "' object is not callable").

(** What a failing [assert] raises. *)
Definition AssertionError : PyExc := MkExc "AssertionError" false "".

(** ** A concrete program: the demonstration of the notebook *)

Module Demo.

Definition StackInspector : PyClass :=
  MkClass "StackInspector" ["object"%string] false.
Definition StackInspectorDemo : PyClass :=
  MkClass "StackInspectorDemo" ["StackInspector"; "object"]%string false.

(** [types.FunctionType] as CPython has it: code with free variables needs
    a closure, and none is passed. *)
Definition cpython_raises (code : CodeType) (globals : dict) (name : string)
  : option PyExc :=
  match co_freevars code with
  | [] => None
  | _ => Some (MkExc "TypeError" true "arg 5 (closure) must be tuple")
  end.


Definition demo : Value := VInstance 1 StackInspectorDemo true.
Definition test_code : CodeType := MkCode "test" [].
Definition test_function : Value := VFunction 0 "test" test_code ∅.

Definition main_globals : dict :=
  <["test" := test_function]> (<["StackInspectorDemo" := VClass StackInspectorDemo]> ∅).

(** The stack when [callee] calls [caller_function]: module, [test],
    [caller], [callee]. *)
Definition module_frame : FrameType :=
  MkFrame main_globals main_globals (MkCode "<module>" []) 462 None.
Definition test_frame : FrameType :=
  MkFrame (<["demo" := demo]> ∅) main_globals test_code 453 (Some module_frame).
Definition caller_method_frame : FrameType :=
  MkFrame (<["self" := demo]> ∅) main_globals (MkCode "caller" []) 442
          (Some test_frame).
Definition callee_frame : FrameType :=
  MkFrame (<["self" := demo]> ∅) main_globals (MkCode "callee" []) 437
          (Some caller_method_frame).

Definition initial : State := MkState ∅ 2 [].

(** A script whose top level binds [self] to an inspector and calls
    [self.caller_frame()]: every frame of the chain is the inspector's. *)
Definition script_globals : dict := <["self" := demo]> ∅.
Definition script_frame : FrameType :=
  MkFrame script_globals script_globals (MkCode "<module>" []) 2 None.

(** An object that can be called and tests false, such as an instance of
    a class with [__call__] and a zero [__len__]. *)
Definition Registry : PyClass := MkClass "Registry" ["object"%string] true.
Definition empty_registry : Value := VInstance 7 Registry false.

(** A frame whose only binding of [handler] is that object. *)
Definition handler_frame : FrameType :=
  MkFrame (<["handler" := empty_registry]> ∅) ∅ (MkCode "run" []) 10 None.

(** [test] with a local variable named [test] that holds another
    callable, calling [demo.caller()]. *)
Definition rebound_frame : FrameType :=
  MkFrame (<["test" := VClass Registry]> (<["demo" := demo]> ∅))
          main_globals test_code 453 (Some module_frame).

(** [demo.caller()] called from [frame], at the call of [caller_function]
    in [callee]. *)
Definition inspecting (frame : FrameType) : FrameType :=
  MkFrame (<["self" := demo]> ∅) main_globals (MkCode "callee" []) 437
    (Some (MkFrame (<["self" := demo]> ∅) main_globals (MkCode "caller" [])
                   442 (Some frame))).
Definition rebound_stack : FrameType := inspecting rebound_frame.

(** Tracebacks: an exception raised in a method of the inspector and caught
    in [test], and one raised and caught in [test]. *)
Definition internal_traceback : TracebackType :=
  MkTraceback test_frame 453
    (Some (MkTraceback caller_method_frame 442
             (Some (MkTraceback callee_frame 438 None)))).
Definition external_traceback : TracebackType :=
  MkTraceback test_frame 454 None.
Definition ValueError : PyClass :=
  MkClass "ValueError" ["Exception"; "BaseException"; "object"]%string false.

(** A nested function that uses a variable of the function around it,
    and a lambda; neither name is bound anywhere. *)
Definition closure_frame : FrameType :=
  MkFrame (<["x" := VInt 1]> ∅) main_globals (MkCode "inner" ["x"%string]) 20
          (Some module_frame).
Definition lambda_frame : FrameType :=
  MkFrame ∅ main_globals (MkCode "<lambda>" []) 30 (Some module_frame).

(** [test] with a local variable named [test] that is not a function,
    called from the module. *)
Definition shadowing_frame : FrameType :=
  MkFrame (<["test" := VInt 3]> ∅) main_globals test_code 453
          (Some module_frame).

(** The methods of [StackInspectorDemo] and the function [test] of the
    notebook, each called from the frame [back]. [main_globals] are the
    globals of the module that defines them. They return [None]; the result
    here is the list of objects they print. *)
Definition callee (module_globals : dict)
    (FunctionType_raises : CodeType -> dict -> string -> option PyExc)
    (main_globals : dict) (self : Value) (back : option FrameType)
  : M (list Value) :=
  let me := MkFrame (<["self" := self]> ∅) main_globals (MkCode "callee" [])
                    437 back in
  let* func := caller_function module_globals FunctionType_raises self (Some me) in
  let* name := lift (getattr_name func) in
  if String.eqb name "test" then ret [func]
  else lift (Raise AssertionError).

Definition caller (module_globals : dict)
    (FunctionType_raises : CodeType -> dict -> string -> option PyExc)
    (main_globals : dict) (self : Value) (back : option FrameType)
  : M (list Value) :=
  let me := MkFrame (<["self" := self]> ∅) main_globals (MkCode "caller" [])
                    442 back in
  callee module_globals FunctionType_raises main_globals self (Some me).

(** [test()]. The name [StackInspectorDemo] is looked up in the globals of
    [test] when the call is made: a [NameError] when it is not bound (it is
    no builtin), a [TypeError] when it is bound to an object that cannot be
    called. The result is [None] where the name is bound to a callable
    whose call these definitions do not describe: a function, or a class
    other than the one of the notebook. *)
Definition test (module_globals : dict)
    (FunctionType_raises : CodeType -> dict -> string -> option PyExc)
    (main_globals : dict) (back : option FrameType)
  : option (M (list Value)) :=
  match main_globals !! "StackInspectorDemo"%string with
  | None => Some (lift (Raise (NameError "StackInspectorDemo")))
  | Some v =>
      if negb (callable v) then Some (lift (Raise (TypeError_not_callable v)))
      else
        match v with
        | VClass c =>
            if bool_decide (c = StackInspectorDemo) then
              Some (let* oid := new_object in
                    let demo := VInstance oid c true in
                    let me := MkFrame (<["demo" := demo]> ∅) main_globals
                                      (MkCode "test" []) 453 back in
                    caller module_globals FunctionType_raises main_globals
                           demo (Some me))
            else None
        | _ => None
        end
  end.

End Demo.

Example demo_caller_frame :
  caller_frame ∅ Demo.demo (Some Demo.callee_frame) = Ok Demo.test_frame.
Proof. vm_compute. reflexivity. Qed.

Example demo_caller_function :
  caller_function ∅ Demo.cpython_raises Demo.demo (Some Demo.callee_frame) Demo.initial
  = (Ok Demo.test_function, Demo.initial).
Proof. vm_compute. reflexivity. Qed.

(** A nested function with a free variable cannot be rebuilt: a warning for
    the search, the placeholder from [create_function], and the cache
    filled. *)
Example demo_caller_function_closure :
  caller_function ∅ Demo.cpython_raises Demo.demo
    (Some (Demo.inspecting Demo.closure_frame)) Demo.initial
  = (Ok (VBoundMethod 2 Demo.demo "unknown"),
     MkState (<[("inner"%string, 20) := VBoundMethod 2 Demo.demo "unknown"]> ∅) 3
             ["Couldn't find inner in caller"%string]).
Proof. vm_compute. reflexivity. Qed.

(** A lambda is rebuilt from its code without a warning. *)
Example demo_caller_function_lambda :
  caller_function ∅ Demo.cpython_raises Demo.demo
    (Some (Demo.inspecting Demo.lambda_frame)) Demo.initial
  = (Ok (VFunction 2 "<lambda>" (MkCode "<lambda>" []) Demo.main_globals),
     MkState (<[("<lambda>"%string, 30) :=
                  VFunction 2 "<lambda>" (MkCode "<lambda>" []) Demo.main_globals]> ∅)
             3 []).
Proof. vm_compute. reflexivity. Qed.

Example demo_internal_error :
  is_internal_error Demo.demo (VClass Demo.ValueError) (VOther "ValueError")
    (Some Demo.internal_traceback) = true /\
  is_internal_error Demo.demo (VClass Demo.ValueError) (VOther "ValueError")
    (Some Demo.external_traceback) = false /\
  is_internal_error Demo.demo VNone VNone None = false.
Proof. repeat split; vm_compute; reflexivity. Qed.

(** ** The walk of [caller_frame] *)

Section ListFacts.
Context {A : Type} (p : A -> bool).

(** [find] returns the first element that passes the test. *)
Lemma find_first (l : list A) (x : A) :
  find p l = Some x ->
  exists before after,
    l = before ++ x :: after /\ Forall (fun y => p y = false) before /\ p x = true.
Proof.
  induction l as [|y l IH]; simpl; [discriminate|].
  destruct (p y) eqn:Hy.
  - intros [= ->]. exists [], l. auto.
  - intros Hfind. destruct (IH Hfind) as (before & after & -> & Hall & Hx).
    exists (y :: before), after. auto.
Qed.

Lemma find_none_iff (l : list A) :
  find p l = None <-> Forall (fun y => p y = false) l.
Proof.
  induction l as [|y l IH]; simpl.
  - split; auto.
  - destruct (p y) eqn:Hy; split.
    + discriminate.
    + intros Hall. apply Forall_cons_1 in Hall as [Hy' _]. congruence.
    + intros Hfind. constructor; [done | by apply IH].
    + intros Hall. apply Forall_cons_1 in Hall as [_ Hall]. by apply IH.
Qed.

Lemma find_some_iff_exists (l : list A) :
  (exists x, find p l = Some x) <-> Exists (fun y => p y = true) l.
Proof.
  induction l as [|y l IH]; simpl.
  - split; [intros [x [=]] | intros H; inversion H].
  - destruct (p y) eqn:Hy.
    + split; [intros _; by left | intros _; by exists y].
    + rewrite IH. split; [by right |].
      intros H. inversion H; subst; [congruence | done].
Qed.
End ListFacts.

Lemma caller_frame_loop_find (self : Value) (frame : FrameType) :
  caller_frame_loop self frame =
  match find (external self) (chain frame) with
  | Some found => Ok found
  | None => Raise AttributeError_f_locals
  end.
Proof.
  induction frame as [l g c n | l g c n back IH] using FrameType_back_ind;
    cbn [caller_frame_loop chain f_back find]; unfold external at 1;
    destruct (our_frame self _); cbn [negb]; auto.
Qed.

Lemma isinstance_own_class (v : Value) : isinstance v (class_of v) = true.
Proof.
  unfold isinstance, issubclass. apply bool_decide_eq_true. by left.
Qed.

Section Walk.
Variable module_globals : dict.

(** The frames of the inspector's own methods are its own. *)
Lemma our_frame_method_frame self method lineno locals back :
  our_frame self (method_frame module_globals self method lineno locals back) = true.
Proof.
  unfold our_frame, method_frame, dict_get. cbn [f_locals].
  rewrite lookup_insert_eq. apply isinstance_own_class.
Qed.

Lemma caller_frame_find self back :
  caller_frame module_globals self back =
  match find (external self) (frames_from back) with
  | Some found => Ok found
  | None => Raise AttributeError_f_locals
  end.
Proof.
  unfold caller_frame. rewrite caller_frame_loop_find.
  pose proof (our_frame_method_frame self "caller_frame" 183 ∅ back) as Hown.
  unfold method_frame in *. cbn [chain f_back find].
  unfold external at 1. rewrite Hown. cbn [negb]. by destruct back.
Qed.

(** Calling through one more method of the inspector changes nothing. *)
Lemma caller_frame_through_method self method lineno locals back :
  caller_frame module_globals self
    (Some (method_frame module_globals self method lineno locals back))
  = caller_frame module_globals self back.
Proof.
  rewrite !caller_frame_find.
  pose proof (our_frame_method_frame self method lineno locals back) as Hown.
  unfold method_frame in *. cbn [frames_from chain f_back find].
  unfold external at 1. rewrite Hown. cbn [negb]. by destruct back.
Qed.
End Walk.

Lemma caller_frame_all_owned (module_globals : dict) (self : Value)
    (back : option FrameType) :
  Forall (fun f => our_frame self f = true) (frames_from back) ->
  caller_frame module_globals self back = Raise AttributeError_f_locals.
Proof.
  intros Hall. rewrite caller_frame_find.
  assert (find (external self) (frames_from back) = None) as ->; [|done].
  apply find_none_iff. eapply Forall_impl; [exact Hall|].
  intros f Hf. unfold external. by rewrite Hf.
Qed.

Lemma caller_frame_some_external (module_globals : dict) (self : Value)
    (back : option FrameType) :
  Exists (fun f => our_frame self f = false) (frames_from back) ->
  exists frame, caller_frame module_globals self back = Ok frame.
Proof.
  intros Hext. rewrite caller_frame_find.
  assert (Exists (fun f => external self f = true) (frames_from back)) as Hfind.
  { eapply Exists_impl; [exact Hext|].
    intros f. unfold external. apply negb_true_iff. }
  apply find_some_iff_exists in Hfind as [found ->]. eauto.
Qed.

(** C1 as the specification states it does not hold: over a chain of
    frames of the inspector only, here [callee] called by [caller] called
    from a script that binds [self], [caller_frame] does not return the
    outermost frame. *)
Lemma caller_frame_outermost_counterexample :
  Forall (fun f => our_frame Demo.demo f = true)
         (frames_from (Some (Demo.inspecting Demo.script_frame))) /\
  outermost (Demo.inspecting Demo.script_frame) = Demo.script_frame /\
  caller_frame ∅ Demo.demo (Some (Demo.inspecting Demo.script_frame))
    <> Ok Demo.script_frame.
Proof.
  split; [|split].
  - repeat constructor.
  - reflexivity.
  - vm_compute. discriminate.
Qed.

(** C1, amended. Whatever frame [caller_frame] returns is not a frame of
    the inspecting class or of a subclass of it: it is the first such frame
    of the chain, however many frames of the inspector lie before it. No
    chain is an exception: over a chain of frames of the inspector only,
    [caller_frame] returns no frame, the walk raises instead. *)
Theorem caller_frame_outside_inspector
    (module_globals : dict) (self : Value) (back : option FrameType) :
  (forall frame,
     caller_frame module_globals self back = Ok frame ->
     our_frame self frame = false /\
     exists inner outer,
       frames_from back = inner ++ frame :: outer /\
       Forall (fun f => our_frame self f = true) inner) /\
  (Forall (fun f => our_frame self f = true) (frames_from back) ->
   caller_frame module_globals self back = Raise AttributeError_f_locals /\
   forall frame, caller_frame module_globals self back <> Ok frame).
Proof.
  rewrite caller_frame_find. split.
  - intros frame.
    destruct (find _ _) as [found|] eqn:Hfind; [|discriminate].
    intros [= ->].
    apply find_first in Hfind as (inner & outer & Heq & Hinner & Hext).
    unfold external in Hext. apply negb_true_iff in Hext. split; [done|].
    exists inner, outer. split; [done|].
    eapply Forall_impl; [exact Hinner|].
    intros f Hf. unfold external in Hf. by apply negb_false_iff in Hf.
  - intros Hall.
    assert (find (external self) (frames_from back) = None) as ->.
    { apply find_none_iff. eapply Forall_impl; [exact Hall|].
      intros f Hf. unfold external. by rewrite Hf. }
    split; [done | discriminate].
Qed.

Lemma caller_frame_outside_inspector_witness :
  our_frame Demo.demo Demo.test_frame = false /\
  exists inner outer,
    frames_from (Some Demo.callee_frame) = inner ++ Demo.test_frame :: outer /\
    Forall (fun f => our_frame Demo.demo f = true) inner.
Proof.
  exact (proj1 (caller_frame_outside_inspector ∅ Demo.demo (Some Demo.callee_frame))
           Demo.test_frame eq_refl).
Defined.

(** C2 as the specification states it does not hold: when every frame of
    the chain belongs to the inspector, [caller_frame] does not return the
    outermost frame; the test of the frame beyond it raises. *)
Lemma caller_frame_exhausted_counterexample :
  Forall (fun f => our_frame Demo.demo f = true) (frames_from (Some Demo.script_frame)) /\
  outermost Demo.script_frame = Demo.script_frame /\
  caller_frame ∅ Demo.demo (Some Demo.script_frame) <> Ok Demo.script_frame /\
  caller_frame ∅ Demo.demo (Some Demo.script_frame) = Raise AttributeError_f_locals.
Proof.
  split; [|split; [|split]].
  - repeat constructor.
  - reflexivity.
  - vm_compute. discriminate.
  - vm_compute. reflexivity.
Qed.

(** C2, amended. [caller_frame] returns a frame exactly when the chain has
    a frame outside the inspecting class; over a chain made of the
    inspector's frames only it returns none: the walk leaves the chain and
    the [AttributeError] of the test on [None] escapes. *)
Theorem caller_frame_exhausted
    (module_globals : dict) (self : Value) (back : option FrameType) :
  ((exists frame, caller_frame module_globals self back = Ok frame) <->
   Exists (fun f => our_frame self f = false) (frames_from back)) /\
  (Forall (fun f => our_frame self f = true) (frames_from back) ->
   caller_frame module_globals self back = Raise AttributeError_f_locals).
Proof.
  rewrite caller_frame_find. split.
  - split.
    + intros Hret.
      assert (exists found, find (external self) (frames_from back) = Some found)
        as Hfind.
      { destruct (find _ _) as [found|]; [eauto | by destruct Hret]. }
      apply find_some_iff_exists in Hfind.
      eapply Exists_impl; [exact Hfind|].
      intros f. unfold external. apply negb_true_iff.
    + intros Hext.
      assert (Exists (fun f => external self f = true) (frames_from back))
        as Hfind.
      { eapply Exists_impl; [exact Hext|].
        intros f. unfold external. apply negb_true_iff. }
      apply find_some_iff_exists in Hfind as [found ->]. eauto.
  - intros Hall.
    assert (find (external self) (frames_from back) = None) as ->; [|done].
    apply find_none_iff. eapply Forall_impl; [exact Hall|].
    intros f Hf. unfold external. by rewrite Hf.
Qed.

Lemma caller_frame_exhausted_witness :
  caller_frame ∅ Demo.demo (Some Demo.script_frame) = Raise AttributeError_f_locals.
Proof.
  apply (caller_frame_exhausted ∅ Demo.demo (Some Demo.script_frame)).
  repeat constructor.
Defined.

(** ** The search of [search_frame] *)

Lemma search_frame_loop_find (name : string) (frame : FrameType) :
  search_frame_loop name frame =
  match find (frame_matches name) (chain frame) with
  | Some found => (Some found, frame_item name found)
  | None => (None, VNone)
  end.
Proof.
  induction frame as [l g c n | l g c n back IH] using FrameType_back_ind;
    cbn [search_frame_loop chain f_back find]; unfold frame_matches at 1;
    destruct (truthy _ && callable _); auto.
Qed.

(** Locals come before globals. *)
Lemma frame_item_precedence (name : string) (frame : FrameType) :
  frame_item name frame =
  match f_locals frame !! name with
  | Some v => v
  | None => dict_get (f_globals frame) name
  end.
Proof.
  unfold frame_item, dict_get.
  destruct (f_locals frame !! name), (f_globals frame !! name); reflexivity.
Qed.

(** A frame lies strictly deeper than any frame of its caller's chain. *)
Lemma chain_depth (frame found : FrameType) :
  found ∈ chain frame -> (length (chain found) <= length (chain frame))%nat.
Proof.
  induction frame as [l g c n | l g c n back IH] using FrameType_back_ind;
    cbn [chain f_back]; intros Hin.
  - apply list_elem_of_singleton in Hin as ->. done.
  - apply elem_of_cons in Hin as [-> | Hin]; [done|].
    specialize (IH Hin). cbn [length]. lia.
Qed.

Lemma search_frame_loop_in_chain (name : string) (frame found : FrameType) (item : Value) :
  search_frame_loop name frame = (Some found, item) -> found ∈ chain frame.
Proof.
  rewrite search_frame_loop_find.
  destruct (find _ _) as [f|] eqn:Hfind; [|discriminate].
  intros [= -> _]. apply find_first in Hfind as (before & after & -> & _).
  apply elem_of_app. right. by left.
Qed.

(** C3 as the specification states it does not hold: a frame can bind the
    name to a callable and still be passed over, here because the callable
    tests false; the search then ends with [(None, None)]. *)
Lemma search_frame_callable_counterexample :
  f_locals Demo.handler_frame !! "handler"%string = Some Demo.empty_registry /\
  callable Demo.empty_registry = true /\
  search_frame ∅ Demo.demo "handler" (Some Demo.handler_frame) None
  = Ok (None, VNone).
Proof. split; [|split]; vm_compute; reflexivity. Qed.

(** C3, amended. From a given start frame [search_frame] walks along
    [f_back]; in each frame the item is the local binding of the name, else
    the global one; the result is the first frame whose item is both true
    and callable, with that item, and it is [(None, None)] exactly when no
    frame of the chain has such an item. *)
Theorem search_frame_first_match
    (module_globals : dict) (self : Value) (name : string)
    (frame : FrameType) (back : option FrameType) :
  search_frame module_globals self name (Some frame) back =
    Ok (match find (frame_matches name) (chain frame) with
        | Some found => (Some found, frame_item name found)
        | None => (None, VNone)
        end) /\
  (search_frame module_globals self name (Some frame) back = Ok (None, VNone) <->
   Forall (fun f => truthy (frame_item name f) && callable (frame_item name f) = false)
          (chain frame)) /\
  (forall f, frame_item name f =
             match f_locals f !! name with
             | Some v => v
             | None => dict_get (f_globals f) name
             end).
Proof.
  unfold search_frame. rewrite search_frame_loop_find.
  split; [done|]. split; [|intros f; apply frame_item_precedence].
  rewrite <- (find_none_iff (frame_matches name)).
  destruct (find _ _) as [found|]; split; try done; intros [=].
Qed.

(** With no start frame the search starts at [caller_frame()]. *)
Lemma search_frame_default (module_globals : dict) (self : Value)
    (name : string) (back : option FrameType) :
  search_frame module_globals self name None back =
  match caller_frame module_globals self back with
  | Ok frame => Ok (search_frame_loop name frame)
  | Raise e => Raise e
  end.
Proof.
  unfold search_frame. by rewrite caller_frame_through_method.
Qed.

(** C8. A local binding of the name that is not callable, or that tests
    false, hides the global binding of the same frame: whatever the globals
    hold, the frame is not the match and the search goes on from its
    caller. *)
Theorem local_binding_hides_global
    (module_globals : dict) (self : Value) (name : string)
    (frame : FrameType) (back : option FrameType) (v : Value) :
  f_locals frame !! name = Some v ->
  callable v = false \/ truthy v = false ->
  search_frame module_globals self name (Some frame) back =
    Ok (match f_back frame with
        | Some parent => search_frame_loop name parent
        | None => (None, VNone)
        end) /\
  forall item,
    search_frame module_globals self name (Some frame) back <> Ok (Some frame, item).
Proof.
  intros Hlocal Hv.
  assert (frame_matches name frame = false) as Hno.
  { unfold frame_matches. rewrite frame_item_precedence, Hlocal.
    destruct Hv as [-> | ->]; [apply andb_false_r | done]. }
  assert (search_frame module_globals self name (Some frame) back =
          Ok (match f_back frame with
              | Some parent => search_frame_loop name parent
              | None => (None, VNone)
              end)) as Heq.
  { unfold search_frame. destruct frame as [l g c n b].
    cbn [search_frame_loop f_back]. unfold frame_matches in Hno. by rewrite Hno. }
  split; [exact Heq|].
  intros item. rewrite Heq. intros [= Hfound].
  destruct (f_back frame) as [parent|] eqn:Hback; [|discriminate].
  apply search_frame_loop_in_chain, chain_depth in Hfound.
  destruct frame as [l g c n b]. cbn [f_back] in Hback. subst b.
  cbn [chain f_back length] in Hfound. lia.
Qed.

Lemma local_binding_hides_global_witness :
  search_frame ∅ Demo.demo "test" (Some Demo.shadowing_frame) None =
    Ok (search_frame_loop "test" Demo.module_frame) /\
  forall item,
    search_frame ∅ Demo.demo "test" (Some Demo.shadowing_frame) None
    <> Ok (Some Demo.shadowing_frame, item).
Proof.
  apply (local_binding_hides_global ∅ Demo.demo "test" Demo.shadowing_frame None (VInt 3)).
  - vm_compute. reflexivity.
  - left. reflexivity.
Defined.

(** ** Classifying tracebacks *)

Lemma any_our_frame_Exists (self : Value) (entries : list (FrameType * Z)) :
  any_our_frame self entries = true <->
  Exists (fun entry => our_frame self entry.1 = true) entries.
Proof.
  induction entries as [|[frame lineno] rest IH]; cbn [any_our_frame].
  - split; [discriminate | intros H; inversion H].
  - destruct (our_frame self frame) eqn:Hown.
    + split; [intros _; by left | done].
    + rewrite IH. split; [by right |].
      intros H. inversion H as [? ? Hhead | ? ? Htail]; subst; [|done].
      cbn [fst] in Hhead. congruence.
Qed.

(** C4. Without an exception type the answer is [False]; with an exception
    class it is [True] exactly when some entry of the traceback has a frame
    of the inspecting class or of a subclass. For any other first argument
    the test of its truth value comes first. *)
Theorem is_internal_error_iff_our_frame
    (self : Value) (exc_value : Value) (exc_traceback : option TracebackType) :
  is_internal_error self VNone exc_value exc_traceback = false /\
  (forall exc_class : PyClass,
     is_internal_error self (VClass exc_class) exc_value exc_traceback = true <->
     Exists (fun entry => our_frame self entry.1 = true) (walk_tb exc_traceback)) /\
  (forall exc_tp : Value,
     is_internal_error self exc_tp exc_value exc_traceback = true <->
     truthy exc_tp = true /\
     Exists (fun entry => our_frame self entry.1 = true) (walk_tb exc_traceback)).
Proof.
  split; [reflexivity|]. split.
  - intros exc_class. unfold is_internal_error. cbn [truthy negb].
    apply any_our_frame_Exists.
  - intros exc_tp. unfold is_internal_error.
    rewrite <- any_our_frame_Exists.
    destruct (truthy exc_tp); cbn [negb]; intuition congruence.
Qed.

(** C10. The exception value plays no part in the answer of
    [is_internal_error]. *)
Theorem is_internal_error_ignores_value
    (self : Value) (exc_tp : Value) (v1 v2 : Value)
    (exc_traceback : option TracebackType) :
  is_internal_error self exc_tp v1 exc_traceback =
  is_internal_error self exc_tp v2 exc_traceback.
Proof. reflexivity. Qed.

(** ** The cache of [create_function] *)

Section Cache.
Variable FunctionType_raises : CodeType -> dict -> string -> option PyExc.

Local Abbreviation create := (create_function FunctionType_raises).

(** A cached key: the cached object comes back and nothing changes. *)
Lemma create_function_hit self frame st cached :
  _generated_function_cache st !! cache_key frame = Some cached ->
  create self frame st = (Ok cached, st).
Proof.
  intros Hhit. unfold create_function, bind, cache_lookup. by rewrite Hhit.
Qed.

(** A key not yet cached: what is returned and stored, by the outcome of
    the constructor. *)
Lemma create_function_miss self frame st :
  _generated_function_cache st !! cache_key frame = None ->
  let name := co_name (f_code frame) in
  let made :=
    match FunctionType_raises (f_code frame) (f_globals frame) name with
    | None => VFunction (next_oid st) name (f_code frame) (f_globals frame)
    | Some exc => VBoundMethod (next_oid st) self "unknown"
    end in
  let warned :=
    match FunctionType_raises (f_code frame) (f_globals frame) name with
    | None => []
    | Some exc =>
        if exc_is_TypeError exc then []
        else ["Couldn't create function for " +:+ name +:+ " " +:+
              " (" +:+ exc_type exc +:+ ": " +:+ exc_str exc +:+ ")"]
    end in
  create self frame st =
  (Ok made,
   MkState (<[cache_key frame := made]> (_generated_function_cache st))
           (S (next_oid st)) (warnings_issued st ++ warned)).
Proof.
  intros Hmiss. cbv zeta.
  unfold create_function, bind, cache_lookup, try_except, FunctionType.
  rewrite Hmiss.
  destruct (FunctionType_raises _ _ _) as [exc|].
  - unfold lift. destruct (exc_is_TypeError exc);
      cbn; rewrite ?app_nil_r; reflexivity.
  - cbn. rewrite app_nil_r. reflexivity.
Qed.

(** Every call returns, and leaves its key cached with what it returned. *)
Lemma create_function_returns self frame st :
  exists made st',
    create self frame st = (Ok made, st') /\
    _generated_function_cache st' !! cache_key frame = Some made.
Proof.
  destruct (_generated_function_cache st !! cache_key frame) as [cached|] eqn:Hkey.
  - exists cached, st. by rewrite (create_function_hit _ _ _ cached).
  - pose proof (create_function_miss self frame st Hkey) as Hmiss.
    cbv zeta in Hmiss. eexists _, _. split; [exact Hmiss|].
    cbn. apply lookup_insert_eq.
Qed.

(** No call removes or replaces an entry of the cache. *)
Lemma create_function_keeps self frame st key cached :
  _generated_function_cache st !! key = Some cached ->
  _generated_function_cache (create self frame st).2 !! key = Some cached.
Proof.
  intros Hkey.
  destruct (_generated_function_cache st !! cache_key frame) as [other|] eqn:Hown.
  - by rewrite (create_function_hit _ _ _ other).
  - pose proof (create_function_miss self frame st Hown) as Hmiss.
    cbv zeta in Hmiss. rewrite Hmiss. cbn.
    rewrite lookup_insert_ne; [done | congruence].
Qed.

Lemma create_functions_keep calls st key cached :
  _generated_function_cache st !! key = Some cached ->
  _generated_function_cache (create_functions FunctionType_raises calls st) !! key
  = Some cached.
Proof.
  revert st. induction calls as [|[self frame] rest IH]; intros st Hkey;
    cbn [create_functions]; [done|].
  by apply IH, create_function_keeps.
Qed.
End Cache.

(** C5. [create_function] is idempotent by key. A call for a frame returns
    the object cached under the key of the frame, built by this call when
    the key was not cached (a new object) and the cached one otherwise, and
    leaves it in the cache. After that, a call for any frame with the same
    code name and line number, on any receiver and after any other calls,
    gives the very same object and builds nothing: it leaves the state as
    it finds it. *)
Theorem create_function_idempotent_by_key
    (FunctionType_raises : CodeType -> dict -> string -> option PyExc)
    (self1 self2 : Value) (frame1 frame2 : FrameType) (st : State) :
  cache_key frame2 = cache_key frame1 ->
  exists made st1,
    create_function FunctionType_raises self1 frame1 st = (Ok made, st1) /\
    _generated_function_cache st1 !! cache_key frame1 = Some made /\
    match _generated_function_cache st !! cache_key frame1 with
    | Some cached => made = cached /\ st1 = st
    | None => object_id made = Some (next_oid st) /\ callable made = true
    end /\
    forall calls,
      let st2 := create_functions FunctionType_raises calls st1 in
      create_function FunctionType_raises self2 frame2 st2 = (Ok made, st2) /\
      _generated_function_cache st2 !! cache_key frame2 = Some made.
Proof.
  intros Hkey.
  destruct (create_function_returns FunctionType_raises self1 frame1 st)
    as (made & st1 & Hfirst & Hcached).
  exists made, st1. split; [exact Hfirst|]. split; [exact Hcached|]. split.
  - destruct (_generated_function_cache st !! cache_key frame1)
      as [cached|] eqn:Hold.
    + rewrite (create_function_hit _ _ _ _ cached Hold) in Hfirst.
      by inversion Hfirst.
    + pose proof (create_function_miss FunctionType_raises self1 frame1 st Hold)
        as Hmiss.
      cbv zeta in Hmiss. rewrite Hmiss in Hfirst. inversion Hfirst; subst made.
      by destruct (FunctionType_raises _ _ _).
  - intros calls st2.
    assert (_generated_function_cache st2 !! cache_key frame2 = Some made) as Hlater.
    { rewrite Hkey. by apply create_functions_keep. }
    split; [by apply create_function_hit | exact Hlater].
Qed.

(** Two inspectors, one of the subclass and one of the base class, and two
    frames with the key [("<lambda>", 30)]: the function built for the
    first is what the second gets, though its own code could not be
    rebuilt. *)
Lemma create_function_idempotent_by_key_witness :
  let made := VFunction 2 "<lambda>" (MkCode "<lambda>" []) Demo.main_globals in
  let st1 := MkState (<[("<lambda>"%string, 30) := made]> ∅) 3 [] in
  create_function Demo.cpython_raises Demo.demo Demo.lambda_frame Demo.initial
    = (Ok made, st1) /\
  forall calls,
    let st2 := create_functions Demo.cpython_raises calls st1 in
    create_function Demo.cpython_raises (VInstance 9 Demo.StackInspector true)
      (MkFrame ∅ ∅ (MkCode "<lambda>" ["y"%string]) 30 None) st2
    = (Ok made, st2) /\
    _generated_function_cache st2 !! ("<lambda>"%string, 30) = Some made.
Proof.
  destruct (create_function_idempotent_by_key Demo.cpython_raises Demo.demo
              (VInstance 9 Demo.StackInspector true) Demo.lambda_frame
              (MkFrame ∅ ∅ (MkCode "<lambda>" ["y"%string]) 30 None)
              Demo.initial eq_refl)
    as (made & st1 & Hfirst & _ & _ & Hlater).
  assert (create_function Demo.cpython_raises Demo.demo Demo.lambda_frame Demo.initial
          = (Ok (VFunction 2 "<lambda>" (MkCode "<lambda>" []) Demo.main_globals),
             MkState (<[("<lambda>"%string, 30) :=
                          VFunction 2 "<lambda>" (MkCode "<lambda>" [])
                                    Demo.main_globals]> ∅) 3 [])) as Hrun.
  { vm_compute. reflexivity. }
  rewrite Hrun in Hfirst. injection Hfirst as <- <-.
  split; [exact Hrun | exact Hlater].
Defined.



(** C9. Once [create_function] has run for a key, every later call for a
    frame with that key, after any number of other calls, returns the
    object cached then and leaves the state alone, whatever the code and
    the globals of the new frame are and whatever the constructor would
    make of them. *)
Theorem create_function_cached_wins
    (FunctionType_raises later_raises : CodeType -> dict -> string -> option PyExc)
    (self1 self2 : Value) (frame1 frame2 : FrameType)
    (calls : list (Value * FrameType)) (st : State) :
  co_name (f_code frame2) = co_name (f_code frame1) ->
  f_lineno frame2 = f_lineno frame1 ->
  let first := create_function FunctionType_raises self1 frame1 st in
  let st' := create_functions FunctionType_raises calls first.2 in
  create_function later_raises self2 frame2 st' = (first.1, st').
Proof.
  intros Hname Hline. cbv zeta.
  destruct (create_function_returns FunctionType_raises self1 frame1 st)
    as (made & st1 & Hfirst & Hcached).
  rewrite Hfirst. cbn [fst snd].
  apply create_function_hit, create_functions_keep.
  unfold cache_key in *. by rewrite Hname, Hline.
Qed.

Lemma create_function_cached_wins_witness :
  create_function Demo.cpython_raises Demo.demo Demo.closure_frame
    (create_functions Demo.cpython_raises [(Demo.demo, Demo.test_frame)]
       (create_function Demo.cpython_raises Demo.demo
          (MkFrame ∅ ∅ (MkCode "inner" []) 20 None) Demo.initial).2)
  = (Ok (VFunction 2 "inner" (MkCode "inner" []) ∅),
     MkState (<[("test"%string, 453) := VFunction 3 "test" Demo.test_code Demo.main_globals]>
                (<[("inner"%string, 20) := VFunction 2 "inner" (MkCode "inner" []) ∅]> ∅))
             4 []).
Proof.
  exact (create_function_cached_wins Demo.cpython_raises Demo.cpython_raises
           Demo.demo Demo.demo (MkFrame ∅ ∅ (MkCode "inner" []) 20 None)
           Demo.closure_frame [(Demo.demo, Demo.test_frame)] Demo.initial
           eq_refl eq_refl).
Defined.

(** ** Resolving the calling function *)

(** C7 as the specification states it does not hold: the search does not
    start one level further out. Here [test] has rebound its own name
    locally; [caller_function] returns that local object, found in the
    caller frame itself, where a search from the frame around it returns
    the function [test]. *)
Lemma caller_function_search_start_counterexample :
  caller_frame ∅ Demo.demo (Some Demo.rebound_stack) = Ok Demo.rebound_frame /\
  caller_function ∅ Demo.cpython_raises Demo.demo (Some Demo.rebound_stack) Demo.initial
    = (Ok (VClass Demo.Registry), Demo.initial) /\
  caller_function_one_level_out ∅ Demo.cpython_raises Demo.demo
      (Some Demo.rebound_stack) Demo.initial
    = (Ok Demo.test_function, Demo.initial) /\
  caller_function ∅ Demo.cpython_raises Demo.demo (Some Demo.rebound_stack) Demo.initial
    <> caller_function_one_level_out ∅ Demo.cpython_raises Demo.demo
         (Some Demo.rebound_stack) Demo.initial.
Proof.
  split; [|split; [|split]]; vm_compute; (reflexivity || discriminate).
Qed.

(** C7, amended. [caller_function] takes the caller frame and the name of
    its code and searches the name from the caller frame itself outwards.
    What the search finds is returned; when it finds nothing, a warning is
    issued unless the name starts with [<], and the result is that of
    [create_function] for the caller frame. *)
Theorem caller_function_resolution
    (module_globals : dict)
    (FunctionType_raises : CodeType -> dict -> string -> option PyExc)
    (self : Value) (back : option FrameType) (frame : FrameType) (st : State) :
  caller_frame module_globals self back = Ok frame ->
  let name := co_name (f_code frame) in
  let func := (search_frame_loop name frame).2 in
  (truthy func = true <->
   exists found, find (frame_matches name) (chain frame) = Some found) /\
  caller_function module_globals FunctionType_raises self back st =
    if truthy func then (Ok func, st)
    else create_function FunctionType_raises self frame
           (if String.prefix "<" name then st
            else MkState (_generated_function_cache st) (next_oid st)
                   (warnings_issued st ++
                    ["Couldn't find " +:+ name +:+ " in caller"])).
Proof.
  intros Hframe. cbv zeta. split.
  - rewrite search_frame_loop_find.
    destruct (find _ _) as [found|] eqn:Hfind; cbn [snd truthy].
    + apply find_first in Hfind as (_ & _ & _ & _ & Hmatch).
      unfold frame_matches in Hmatch. apply andb_true_iff in Hmatch as [-> _].
      split; eauto.
    + split; [discriminate | intros [found [=]]].
  - unfold caller_function, bind, lift.
    rewrite caller_frame_through_method, Hframe.
    unfold search_func. rewrite search_frame_default.
    rewrite !caller_frame_through_method, Hframe.
    destruct (search_frame_loop _ frame) as [found func]. cbn [snd].
    destruct (truthy func); [reflexivity|].
    destruct (String.prefix "<" _); reflexivity.
Qed.

Lemma caller_function_resolution_witness :
  caller_function ∅ Demo.cpython_raises Demo.demo (Some Demo.callee_frame) Demo.initial
  = (Ok Demo.test_function, Demo.initial).
Proof.
  exact (proj2 (caller_function_resolution ∅ Demo.cpython_raises Demo.demo
                  (Some Demo.callee_frame) Demo.test_frame Demo.initial
                  eq_refl)).
Defined.

(** ** Frames of the inspector between the call and the caller *)

Section Transparency.
Variable module_globals : dict.
Variable FunctionType_raises : CodeType -> dict -> string -> option PyExc.

Lemma caller_frame_skip_owned self frame :
  our_frame self frame = true ->
  caller_frame module_globals self (Some frame)
  = caller_frame module_globals self (f_back frame).
Proof.
  intros Hown. rewrite !caller_frame_find.
  destruct frame as [l g c n back]. cbn [frames_from chain f_back find].
  unfold external at 1. rewrite Hown. cbn [negb]. by destruct back.
Qed.

Lemma search_func_default self name back :
  search_func module_globals self name None back =
  match caller_frame module_globals self back with
  | Ok frame => Ok (search_frame_loop name frame).2
  | Raise e => Raise e
  end.
Proof.
  unfold search_func. rewrite search_frame_default, caller_frame_through_method.
  destruct (caller_frame _ _ _) as [frame|e]; [|done].
  by destruct (search_frame_loop name frame).
Qed.

(** [caller_function] in terms of the caller frame. *)
Lemma caller_function_unfold self back st :
  caller_function module_globals FunctionType_raises self back st =
  match caller_frame module_globals self back with
  | Raise e => (Raise e, st)
  | Ok frame =>
      let name := co_name (f_code frame) in
      let func := (search_frame_loop name frame).2 in
      if truthy func then (Ok func, st)
      else create_function FunctionType_raises self frame
             (if String.prefix "<" name then st
              else MkState (_generated_function_cache st) (next_oid st)
                     (warnings_issued st ++
                      ["Couldn't find " +:+ name +:+ " in caller"]))
  end.
Proof.
  unfold caller_function, bind, lift. rewrite caller_frame_through_method.
  destruct (caller_frame _ _ back) as [frame|e] eqn:Hframe; [|done].
  rewrite search_func_default, caller_frame_through_method, Hframe. cbv zeta.
  destruct (truthy _); [done|]. by destruct (String.prefix "<" _).
Qed.

Lemma caller_function_skip_owned self frame st :
  our_frame self frame = true ->
  caller_function module_globals FunctionType_raises self (Some frame) st
  = caller_function module_globals FunctionType_raises self (f_back frame) st.
Proof.
  intros Hown. by rewrite !caller_function_unfold, caller_frame_skip_owned.
Qed.
End Transparency.

(** X1. A frame of the inspecting class between the call and the caller is
    transparent: called from such a frame, [caller_frame], [search_func]
    without a start frame and [caller_function] give what they give when
    called from the frame behind it. *)
Theorem owned_frame_is_transparent
    (module_globals : dict)
    (FunctionType_raises : CodeType -> dict -> string -> option PyExc)
    (self : Value) (frame : FrameType) (name : string) (st : State) :
  our_frame self frame = true ->
  caller_frame module_globals self (Some frame)
    = caller_frame module_globals self (f_back frame) /\
  search_func module_globals self name None (Some frame)
    = search_func module_globals self name None (f_back frame) /\
  caller_function module_globals FunctionType_raises self (Some frame) st
    = caller_function module_globals FunctionType_raises self (f_back frame) st.
Proof.
  intros Hown. split; [|split].
  - by apply caller_frame_skip_owned.
  - by rewrite !search_func_default, caller_frame_skip_owned.
  - by apply caller_function_skip_owned.
Qed.

Lemma owned_frame_is_transparent_witness :
  caller_frame ∅ Demo.demo (Some Demo.callee_frame)
    = caller_frame ∅ Demo.demo (Some Demo.caller_method_frame) /\
  search_func ∅ Demo.demo "test" None (Some Demo.callee_frame)
    = search_func ∅ Demo.demo "test" None (Some Demo.caller_method_frame) /\
  caller_function ∅ Demo.cpython_raises Demo.demo (Some Demo.callee_frame) Demo.initial
    = caller_function ∅ Demo.cpython_raises Demo.demo
        (Some Demo.caller_method_frame) Demo.initial.
Proof.
  apply (owned_frame_is_transparent ∅ Demo.cpython_raises Demo.demo
           Demo.callee_frame "test" Demo.initial).
  vm_compute. reflexivity.
Defined.

(** X2. [caller_globals] and [caller_locals] hand out the globals and the
    locals of the frame that [caller_frame] gives their caller, and fail
    when it fails. *)
Theorem caller_globals_locals_of_caller_frame
    (module_globals : dict) (self : Value) (back : option FrameType) :
  caller_globals module_globals self back =
    match caller_frame module_globals self back with
    | Ok frame => Ok (f_globals frame)
    | Raise e => Raise e
    end /\
  caller_locals module_globals self back =
    match caller_frame module_globals self back with
    | Ok frame => Ok (f_locals frame)
    | Raise e => Raise e
    end.
Proof.
  unfold caller_globals, caller_locals.
  by rewrite !caller_frame_through_method.
Qed.

(** X3. When [None] is no instance of the inspector's class, a frame
    without a local [self] is never the inspector's: [caller_frame] called
    from it returns it, and a traceback through such frames only is no
    internal error. *)
Theorem frame_without_self_is_external
    (module_globals : dict) (self : Value) :
  isinstance VNone (class_of self) = false ->
  (forall frame, f_locals frame !! "self"%string = None ->
     our_frame self frame = false /\
     caller_frame module_globals self (Some frame) = Ok frame) /\
  (forall exc_tp exc_value exc_traceback,
     Forall (fun entry => f_locals entry.1 !! "self"%string = None)
            (walk_tb exc_traceback) ->
     is_internal_error self exc_tp exc_value exc_traceback = false).
Proof.
  intros Hnone.
  assert (forall frame, f_locals frame !! "self"%string = None ->
                        our_frame self frame = false) as Hext.
  { intros frame Hself. unfold our_frame, dict_get. by rewrite Hself. }
  split.
  - intros frame Hself. split; [by apply Hext|].
    rewrite caller_frame_find. destruct frame as [l g c n back].
    cbn [frames_from chain find]. unfold external at 1.
    by rewrite (Hext _ Hself).
  - intros exc_tp exc_value exc_traceback Hall. unfold is_internal_error.
    destruct (truthy exc_tp); cbn [negb]; [|done].
    induction Hall as [|[frame lineno] rest Hself _ IH]; [done|].
    cbn [any_our_frame]. cbn [fst] in Hself. by rewrite (Hext _ Hself).
Qed.

Lemma frame_without_self_is_external_witness :
  (forall frame, f_locals frame !! "self"%string = None ->
     our_frame Demo.demo frame = false /\
     caller_frame ∅ Demo.demo (Some frame) = Ok frame) /\
  (forall exc_tp exc_value exc_traceback,
     Forall (fun entry => f_locals entry.1 !! "self"%string = None)
            (walk_tb exc_traceback) ->
     is_internal_error Demo.demo exc_tp exc_value exc_traceback = false).
Proof.
  apply (frame_without_self_is_external ∅ Demo.demo). vm_compute. reflexivity.
Defined.

(** ** What the search hands out *)

Lemma search_frame_loop_found (name : string) (frame found : FrameType) (item : Value) :
  search_frame_loop name frame = (Some found, item) ->
  item = frame_item name found /\ frame_matches name found = true.
Proof.
  rewrite search_frame_loop_find.
  destruct (find _ _) as [f|] eqn:Hfind; [|discriminate].
  intros [= -> <-]. by apply find_first in Hfind as (_ & _ & _ & _ & Hmatch).
Qed.

Lemma search_frame_loop_shape (name : string) (frame : FrameType) :
  search_frame_loop name frame = (None, VNone) \/
  exists found item,
    search_frame_loop name frame = (Some found, item) /\
    truthy item = true /\ callable item = true.
Proof.
  destruct (search_frame_loop name frame) as [[found|] item] eqn:Hsearch.
  - right. exists found, item. split; [done|].
    apply search_frame_loop_found in Hsearch as [-> Hmatch].
    unfold frame_matches in Hmatch. by apply andb_true_iff in Hmatch.
  - left. rewrite search_frame_loop_find in Hsearch.
    by destruct (find _ _); inversion Hsearch.
Qed.



(** X5. A frame returned by [search_frame] is a frame of the chain searched
    and binds the name to the returned item, in its locals, or in its
    globals when the locals do not bind the name; the frame is [None]
    exactly when the item is. *)
Theorem search_frame_binding
    (module_globals : dict) (self : Value) (name : string)
    (start : FrameType) (back : option FrameType)
    (found : option FrameType) (item : Value) :
  search_frame module_globals self name (Some start) back = Ok (found, item) ->
  (found = None <-> item = VNone) /\
  forall frame, found = Some frame ->
    frame ∈ chain start /\
    (f_locals frame !! name = Some item \/
     (f_locals frame !! name = None /\ f_globals frame !! name = Some item)).
Proof.
  unfold search_frame. intros [= Hsearch]. split.
  - destruct (search_frame_loop_shape name start)
      as [Hnone | (f & v & Hsome & Htrue & _)].
    + rewrite Hnone in Hsearch. by inversion Hsearch.
    + rewrite Hsome in Hsearch. inversion Hsearch; subst.
      split; [discriminate | intros ->; discriminate].
  - intros frame ->. split; [by eapply search_frame_loop_in_chain|].
    apply search_frame_loop_found in Hsearch as [Hitem Hmatch].
    unfold frame_matches in Hmatch. rewrite <- Hitem in Hmatch.
    rewrite frame_item_precedence in Hitem. unfold dict_get in Hitem.
    destruct (f_locals frame !! name) as [v|]; [left; by subst|].
    right. split; [done|].
    destruct (f_globals frame !! name) as [v|]; [by subst|].
    cbn in Hitem. subst item. discriminate.
Qed.

Lemma search_frame_binding_witness :
  (Some Demo.test_frame = None <-> Demo.test_function = VNone) /\
  forall frame, Some Demo.test_frame = Some frame ->
    frame ∈ chain Demo.test_frame /\
    (f_locals frame !! "test"%string = Some Demo.test_function \/
     (f_locals frame !! "test"%string = None /\
      f_globals frame !! "test"%string = Some Demo.test_function)).
Proof.
  apply (search_frame_binding ∅ Demo.demo "test" Demo.test_frame None).
  vm_compute. reflexivity.
Defined.

(** X6. Searching again from the frame that [search_frame] returned returns
    the same frame and item. *)
Theorem search_frame_again
    (module_globals : dict) (self : Value) (name : string)
    (start found : FrameType) (back back' : option FrameType) (item : Value) :
  search_frame module_globals self name (Some start) back = Ok (Some found, item) ->
  search_frame module_globals self name (Some found) back' = Ok (Some found, item).
Proof.
  unfold search_frame. intros [= Hsearch]. f_equal.
  apply search_frame_loop_found in Hsearch as [-> Hmatch].
  destruct found as [l g c n b]. cbn [search_frame_loop].
  unfold frame_matches in Hmatch. by rewrite Hmatch.
Qed.

Lemma search_frame_again_witness :
  search_frame ∅ Demo.demo "test" (Some Demo.module_frame) None
  = Ok (Some Demo.module_frame, Demo.test_function).
Proof.
  apply (search_frame_again ∅ Demo.demo "test" Demo.shadowing_frame
           Demo.module_frame None None Demo.test_function).
  vm_compute. reflexivity.
Defined.

(** ** [caller_function] and the state *)

(** The state in which [caller_function] calls [create_function]. *)
Lemma create_function_cache_insert
    (FunctionType_raises : CodeType -> dict -> string -> option PyExc)
    (self : Value) (frame : FrameType) (st st' : State) (made : Value) :
  create_function FunctionType_raises self frame st = (Ok made, st') ->
  _generated_function_cache st' =
    <[cache_key frame := made]> (_generated_function_cache st) /\
  (next_oid st <= next_oid st')%nat /\
  exists warned, warnings_issued st' = warnings_issued st ++ warned.
Proof.
  destruct (_generated_function_cache st !! cache_key frame) as [cached|] eqn:Hkey.
  - rewrite (create_function_hit _ _ _ _ cached Hkey). intros [= <- <-].
    split; [by rewrite insert_id | split; [lia|]].
    exists []. by rewrite app_nil_r.
  - pose proof (create_function_miss FunctionType_raises self frame st Hkey) as Hmiss.
    cbv zeta in Hmiss. rewrite Hmiss. intros [= <- <-]. cbn.
    split; [done | split; [lia | eauto]].
Qed.

(** X7. [caller_function] fails exactly as [caller_frame] does: over a
    chain of frames of the inspector only it raises the [AttributeError] of
    the walk and leaves the state alone; as soon as the chain has a frame
    outside the inspector it returns. *)
Theorem caller_function_fails_as_caller_frame
    (module_globals : dict)
    (FunctionType_raises : CodeType -> dict -> string -> option PyExc)
    (self : Value) (back : option FrameType) (st : State) :
  (Forall (fun f => our_frame self f = true) (frames_from back) ->
   caller_function module_globals FunctionType_raises self back st
   = (Raise AttributeError_f_locals, st)) /\
  (Exists (fun f => our_frame self f = false) (frames_from back) ->
   exists func st',
     caller_function module_globals FunctionType_raises self back st
     = (Ok func, st')).
Proof.
  rewrite caller_function_unfold. split.
  - intros Hall. by rewrite (caller_frame_all_owned _ _ _ Hall).
  - intros Hext.
    apply (caller_frame_some_external module_globals) in Hext as [frame ->].
    cbv zeta.
    destruct (truthy _); [eauto|].
    match goal with
    | |- context [create_function ?F ?s ?f ?state] =>
        destruct (create_function_returns F s f state) as (made & st' & -> & _)
    end.
    eauto.
Qed.

Lemma caller_function_fails_as_caller_frame_witness :
  caller_function ∅ Demo.cpython_raises Demo.demo (Some Demo.script_frame) Demo.initial
  = (Raise AttributeError_f_locals, Demo.initial).
Proof.
  apply (caller_function_fails_as_caller_frame ∅ Demo.cpython_raises Demo.demo
           (Some Demo.script_frame) Demo.initial).
  repeat constructor.
Defined.

(** X8. [create_function] changes the cache at the key of its frame only:
    after any call the cache is the old one with the returned object under
    that key, so every other key keeps what it had, cached or not. *)
Theorem create_function_touches_one_key
    (FunctionType_raises : CodeType -> dict -> string -> option PyExc)
    (self : Value) (frame : FrameType) (st : State) :
  exists made st',
    create_function FunctionType_raises self frame st = (Ok made, st') /\
    _generated_function_cache st' =
      <[cache_key frame := made]> (_generated_function_cache st) /\
    forall key, key <> cache_key frame ->
      _generated_function_cache st' !! key = _generated_function_cache st !! key.
Proof.
  destruct (create_function_returns FunctionType_raises self frame st)
    as (made & st' & Hcall & _).
  exists made, st'. split; [done|].
  apply create_function_cache_insert in Hcall as (Hcache & _).
  split; [done|]. intros key Hkey. rewrite Hcache.
  by apply lookup_insert_ne.
Qed.

(** Every object that [create_function] makes can be called. *)
Lemma create_function_callable
    (FunctionType_raises : CodeType -> dict -> string -> option PyExc)
    (self : Value) (frame : FrameType) (st st' : State) (made : Value) :
  cache_callable st ->
  create_function FunctionType_raises self frame st = (Ok made, st') ->
  callable made = true /\ cache_callable st'.
Proof.
  unfold cache_callable. intros Hinv.
  destruct (_generated_function_cache st !! cache_key frame) as [cached|] eqn:Hkey.
  - rewrite (create_function_hit _ _ _ _ cached Hkey). intros [= <- <-].
    split; [|done]. exact (Hinv _ _ Hkey).
  - pose proof (create_function_miss FunctionType_raises self frame st Hkey) as Hmiss.
    cbv zeta in Hmiss. rewrite Hmiss. intros [= <- <-]. cbn.
    assert (callable
              match FunctionType_raises (f_code frame) (f_globals frame)
                      (co_name (f_code frame)) with
              | Some _ => VBoundMethod (next_oid st) self "unknown"
              | None => VFunction (next_oid st) (co_name (f_code frame))
                          (f_code frame) (f_globals frame)
              end = true) as Hmade.
    { by destruct (FunctionType_raises _ _ _). }
    split; [done|]. by apply map_Forall_insert_2.
Qed.

(** X9. As long as the cache holds callable objects only, whatever
    [caller_function] returns can be called, and the cache still holds
    callable objects only afterwards. *)
Theorem caller_function_returns_callable
    (module_globals : dict)
    (FunctionType_raises : CodeType -> dict -> string -> option PyExc)
    (self : Value) (back : option FrameType) (st st' : State) (func : Value) :
  cache_callable st ->
  caller_function module_globals FunctionType_raises self back st = (Ok func, st') ->
  callable func = true /\ cache_callable st'.
Proof.
  intros Hinv. rewrite caller_function_unfold.
  destruct (caller_frame _ _ _) as [frame|e]; [|discriminate]. cbv zeta.
  destruct (truthy _) eqn:Htrue.
  - intros [= <- <-]. split; [|done].
    destruct (search_frame_loop_shape (co_name (f_code frame)) frame)
      as [Hnone | (found & item & Hsome & _ & Hcall)].
    + rewrite Hnone in Htrue. discriminate.
    + by rewrite Hsome.
  - apply create_function_callable.
    by destruct (String.prefix "<" _).
Qed.

Lemma caller_function_returns_callable_witness :
  callable (VBoundMethod 2 Demo.demo "unknown") = true /\
  cache_callable
    (MkState (<[("inner"%string, 20) := VBoundMethod 2 Demo.demo "unknown"]> ∅) 3
             ["Couldn't find inner in caller"%string]).
Proof.
  apply (caller_function_returns_callable ∅ Demo.cpython_raises Demo.demo
           (Some (Demo.inspecting Demo.closure_frame)) Demo.initial).
  - apply map_Forall_empty.
  - vm_compute. reflexivity.
Defined.

(** X10. A second call of [caller_function] from the same place returns the
    very object of the first call, and builds and caches nothing: the cache
    and the object counter stay as the first call left them. *)
Theorem caller_function_repeat
    (module_globals : dict)
    (FunctionType_raises : CodeType -> dict -> string -> option PyExc)
    (self : Value) (back : option FrameType) (st st1 : State) (func : Value) :
  caller_function module_globals FunctionType_raises self back st = (Ok func, st1) ->
  exists st2,
    caller_function module_globals FunctionType_raises self back st1 = (Ok func, st2) /\
    _generated_function_cache st2 = _generated_function_cache st1 /\
    next_oid st2 = next_oid st1.
Proof.
  rewrite !caller_function_unfold.
  destruct (caller_frame _ _ _) as [frame|e]; [|discriminate]. cbv zeta.
  destruct (truthy _).
  - intros [= <- <-]. by exists st.
  - intros Hfirst.
    assert (_generated_function_cache st1 !! cache_key frame = Some func) as Hkey.
    { apply create_function_cache_insert in Hfirst as (-> & _).
      apply lookup_insert_eq. }
    eexists. split; [|split].
    + apply create_function_hit. by destruct (String.prefix "<" _).
    + by destruct (String.prefix "<" _).
    + by destruct (String.prefix "<" _).
Qed.

Lemma caller_function_repeat_witness :
  exists st2,
    caller_function ∅ Demo.cpython_raises Demo.demo
      (Some (Demo.inspecting Demo.closure_frame))
      (MkState (<[("inner"%string, 20) := VBoundMethod 2 Demo.demo "unknown"]> ∅) 3
               ["Couldn't find inner in caller"%string])
    = (Ok (VBoundMethod 2 Demo.demo "unknown"), st2) /\
    _generated_function_cache st2 =
      <[("inner"%string, 20) := VBoundMethod 2 Demo.demo "unknown"]> ∅ /\
    next_oid st2 = 3%nat.
Proof.
  apply (caller_function_repeat ∅ Demo.cpython_raises Demo.demo
           (Some (Demo.inspecting Demo.closure_frame)) Demo.initial).
  vm_compute. reflexivity.
Defined.

(** X11. [caller_function] only adds to the state: the cache it leaves
    contains the cache it found, the warnings it found are the first of the
    warnings it leaves, at most two are new, and no object identity is
    taken back. *)
Theorem caller_function_only_adds
    (module_globals : dict)
    (FunctionType_raises : CodeType -> dict -> string -> option PyExc)
    (self : Value) (back : option FrameType) (st st' : State) (func : Value) :
  caller_function module_globals FunctionType_raises self back st = (Ok func, st') ->
  _generated_function_cache st ⊆ _generated_function_cache st' /\
  (next_oid st <= next_oid st')%nat /\
  exists warned,
    warnings_issued st' = warnings_issued st ++ warned /\
    (length warned <= 2)%nat.
Proof.
  rewrite caller_function_unfold.
  destruct (caller_frame _ _ _) as [frame|e]; [|discriminate]. cbv zeta.
  destruct (truthy _).
  { intros [= <- <-]. split; [done | split; [lia|]].
    exists []. split; [by rewrite app_nil_r | cbn; lia]. }
  set (searched := if String.prefix "<" (co_name (f_code frame)) then st else _).
  assert (_generated_function_cache searched = _generated_function_cache st /\
          next_oid searched = next_oid st /\
          exists w, warnings_issued searched = warnings_issued st ++ w /\
                    (length w <= 1)%nat) as (Hcache & Hoid & w & Hw & Hlen).
  { subst searched. destruct (String.prefix "<" _); cbn.
    - split; [done | split; [done|]].
      exists []. split; [by rewrite app_nil_r | cbn; lia].
    - split; [done | split; [done|]].
      eexists. split; [done | cbn; lia]. }
  intros Hcreate.
  destruct (_generated_function_cache searched !! cache_key frame)
    as [cached|] eqn:Hkey.
  - rewrite (create_function_hit _ _ _ _ cached Hkey) in Hcreate.
    inversion Hcreate; subst st'. rewrite Hcache, Hoid.
    split; [done | split; [lia|]]. exists w. split; [done | lia].
  - pose proof (create_function_miss FunctionType_raises self frame searched Hkey)
      as Hmiss.
    cbv zeta in Hmiss. rewrite Hmiss in Hcreate. inversion Hcreate; subst st'.
    cbn. rewrite Hcache in *. rewrite Hoid, Hw.
    split; [by apply insert_subseteq | split; [lia|]].
    eexists. split; [by rewrite <- app_assoc|].
    rewrite length_app.
    destruct (FunctionType_raises _ _ _) as [exc|]; [|cbn; lia].
    destruct (exc_is_TypeError exc); cbn; lia.
Qed.

Lemma caller_function_only_adds_witness :
  (∅ : gmap (string * Z) Value) ⊆
    <[("inner"%string, 20) := VBoundMethod 2 Demo.demo "unknown"]> ∅ /\
  (2 <= 3)%nat /\
  exists warned,
    ["Couldn't find inner in caller"%string] = [] ++ warned /\
    (length warned <= 2)%nat.
Proof.
  exact (caller_function_only_adds ∅ Demo.cpython_raises Demo.demo
           (Some (Demo.inspecting Demo.closure_frame)) Demo.initial
           (MkState (<[("inner"%string, 20) := VBoundMethod 2 Demo.demo "unknown"]> ∅)
                    3 ["Couldn't find inner in caller"%string])
           (VBoundMethod 2 Demo.demo "unknown") eq_refl).
Defined.

(** X12. [caller_location] pairs what [caller_function] returns for its
    caller with the line number of the frame that [caller_frame] gives its
    caller, in the state [caller_function] leaves; it fails when they fail. *)
Theorem caller_location_pairs
    (module_globals : dict)
    (FunctionType_raises : CodeType -> dict -> string -> option PyExc)
    (self : Value) (back : option FrameType) (st : State) :
  caller_location module_globals FunctionType_raises self back st =
  match caller_function module_globals FunctionType_raises self back st with
  | (Ok func, st') =>
      match caller_frame module_globals self back with
      | Ok frame => (Ok (func, f_lineno frame), st')
      | Raise e => (Raise e, st')
      end
  | (Raise e, st') => (Raise e, st')
  end.
Proof.
  unfold caller_location, bind, lift.
  pose proof (our_frame_method_frame module_globals self "caller_location" 243 ∅ back)
    as Hown.
  rewrite (caller_function_skip_owned _ _ _ _ _ Hown).
  rewrite caller_frame_through_method. unfold method_frame. cbn [f_back].
  destruct (caller_function _ _ _ _ _) as [[func|e] st']; [|done].
  by destruct (caller_frame _ _ _).
Qed.

(** ** The demonstration: [StackInspectorDemo] and [test] *)

Lemma our_frame_self_local (self : Value) (frame : FrameType) :
  f_locals frame !! "self"%string = Some self -> our_frame self frame = true.
Proof.
  intros Hself. unfold our_frame, dict_get. rewrite Hself.
  apply isinstance_own_class.
Qed.

Lemma caller_resolves_calling_function
    (module_globals : dict)
    (FunctionType_raises : CodeType -> dict -> string -> option PyExc)
    (main_globals : dict) (oid : nat) (truth : bool)
    (frame : FrameType) (fn_oid : nat) (fn_globals : dict) (st : State) :
  let demo := VInstance oid Demo.StackInspectorDemo truth in
  let name := co_name (f_code frame) in
  let function := VFunction fn_oid name (f_code frame) fn_globals in
  f_locals frame !! "self"%string = None ->
  f_locals frame !! name = None ->
  f_globals frame !! name = Some function ->
  Demo.caller module_globals FunctionType_raises main_globals demo (Some frame) st
  = if String.eqb name "test" then (Ok [function], st)
    else (Raise AssertionError, st).
Proof.
  intros demo name function Hself Hlocal Hglobal.
  unfold Demo.caller, Demo.callee, bind.
  rewrite caller_function_skip_owned
    by (apply our_frame_self_local; cbn; apply lookup_insert_eq).
  cbn [f_back].
  rewrite caller_function_skip_owned
    by (apply our_frame_self_local; cbn; apply lookup_insert_eq).
  cbn [f_back]. rewrite caller_function_unfold.
  assert (our_frame demo frame = false) as Hext.
  { unfold our_frame, dict_get. by rewrite Hself. }
  assert (caller_frame module_globals demo (Some frame) = Ok frame) as ->.
  { rewrite caller_frame_find. destruct frame as [l g c n b].
    cbn [frames_from chain find]. unfold external at 1. by rewrite Hext. }
  cbv zeta.
  assert (search_frame_loop name frame = (Some frame, function)) as Hsearch.
  { assert (frame_item name frame = function) as Hitem.
    { rewrite frame_item_precedence. unfold dict_get. by rewrite Hlocal, Hglobal. }
    destruct frame as [l g c n b]. cbn [search_frame_loop]. by rewrite Hitem. }
  fold name. rewrite Hsearch. subst function.
  cbn [snd truthy]. unfold lift, getattr_name, ret.
  by destruct (String.eqb name "test").
Qed.

(** X13. When a function that binds neither [self] nor its own name locally,
    and whose name is bound to it in its globals, calls [demo.caller()],
    [callee] finds that function: the assertion of [callee] holds, and the
    function is printed, exactly when the function is called [test];
    otherwise [AssertionError] is raised. The state is left alone. *)
Theorem demo_caller_asserts_test
    (module_globals : dict)
    (FunctionType_raises : CodeType -> dict -> string -> option PyExc)
    (main_globals : dict) (oid : nat) (truth : bool)
    (frame : FrameType) (fn_oid : nat) (fn_globals : dict) (st : State) :
  let demo := VInstance oid Demo.StackInspectorDemo truth in
  let name := co_name (f_code frame) in
  let function := VFunction fn_oid name (f_code frame) fn_globals in
  f_locals frame !! "self"%string = None ->
  f_locals frame !! name = None ->
  f_globals frame !! name = Some function ->
  Demo.caller module_globals FunctionType_raises main_globals demo (Some frame) st
  = if String.eqb name "test" then (Ok [function], st)
    else (Raise AssertionError, st).
Proof. apply caller_resolves_calling_function. Qed.

Lemma demo_caller_asserts_test_witness :
  Demo.caller ∅ Demo.cpython_raises Demo.main_globals Demo.demo
    (Some Demo.test_frame) Demo.initial
  = (Ok [Demo.test_function], Demo.initial).
Proof.
  exact (demo_caller_asserts_test ∅ Demo.cpython_raises Demo.main_globals 1 true
           Demo.test_frame 0 ∅ Demo.initial eq_refl eq_refl eq_refl).
Defined.

(** X14. [test()] looks the class up in its globals. Where they bind
    [StackInspectorDemo] to the class and [test] to the function itself,
    [test()] runs without an [AssertionError] from any place: it makes the
    one [StackInspectorDemo] object, prints the function [test], and leaves
    the cache and the warnings as they were. Where they do not bind
    [StackInspectorDemo], it raises [NameError]; where they bind it to an
    object that cannot be called, [TypeError]; the state is left alone. *)
Theorem demo_test_passes
    (module_globals : dict)
    (FunctionType_raises : CodeType -> dict -> string -> option PyExc)
    (main_globals : dict) (back : option FrameType) (st : State) :
  (forall fn_oid fn_globals,
     let function := VFunction fn_oid "test" (MkCode "test" []) fn_globals in
     main_globals !! "StackInspectorDemo"%string = Some (VClass Demo.StackInspectorDemo) ->
     main_globals !! "test"%string = Some function ->
     exists run,
       Demo.test module_globals FunctionType_raises main_globals back = Some run /\
       run st = (Ok [function],
                 MkState (_generated_function_cache st) (S (next_oid st))
                         (warnings_issued st))) /\
  (main_globals !! "StackInspectorDemo"%string = None ->
   exists run,
     Demo.test module_globals FunctionType_raises main_globals back = Some run /\
     run st = (Raise (NameError "StackInspectorDemo"), st)) /\
  (forall v,
     main_globals !! "StackInspectorDemo"%string = Some v ->
     callable v = false ->
     exists run,
       Demo.test module_globals FunctionType_raises main_globals back = Some run /\
       run st = (Raise (TypeError_not_callable v), st)).
Proof.
  split; [|split].
  - intros fn_oid fn_globals function Hclass Hglobal.
    unfold Demo.test. rewrite Hclass. cbn [callable negb].
    rewrite bool_decide_eq_true_2 by done.
    eexists. split; [reflexivity|].
    unfold bind, new_object.
    exact (caller_resolves_calling_function module_globals FunctionType_raises
             main_globals (next_oid st) true
             (MkFrame (<["demo" := VInstance (next_oid st) Demo.StackInspectorDemo true]> ∅)
                      main_globals (MkCode "test" []) 453 back)
             fn_oid fn_globals _ eq_refl eq_refl Hglobal).
  - intros Hclass. unfold Demo.test. rewrite Hclass. eauto.
  - intros v Hclass Hcall. unfold Demo.test. rewrite Hclass, Hcall. cbn [negb].
    eauto.
Qed.

Lemma demo_test_passes_witness :
  exists run,
    Demo.test ∅ Demo.cpython_raises Demo.main_globals (Some Demo.module_frame)
      = Some run /\
    run Demo.initial = (Ok [Demo.test_function], MkState ∅ 3 []).
Proof.
  exact (proj1 (demo_test_passes ∅ Demo.cpython_raises Demo.main_globals
                  (Some Demo.module_frame) Demo.initial)
           0%nat ∅ eq_refl eq_refl).
Defined.

(** ** The default start of the search, and what a traceback counts for *)

(** X15. Without a start frame, [search_frame] and [search_func] search
    from the frame that [caller_frame] gives their caller, as if that frame
    had been passed; over a chain of frames of the inspector only they
    raise the [AttributeError] of the walk. *)
Theorem search_default_start
    (module_globals : dict) (self : Value) (name : string)
    (back : option FrameType) :
  (forall frame, caller_frame module_globals self back = Ok frame ->
     search_frame module_globals self name None back
       = search_frame module_globals self name (Some frame) back /\
     search_func module_globals self name None back
       = search_func module_globals self name (Some frame) back) /\
  (Forall (fun f => our_frame self f = true) (frames_from back) ->
   search_frame module_globals self name None back = Raise AttributeError_f_locals /\
   search_func module_globals self name None back = Raise AttributeError_f_locals).
Proof.
  split.
  - intros frame Hframe.
    rewrite search_func_default, search_frame_default, Hframe.
    unfold search_func, search_frame.
    split; [done | by destruct (search_frame_loop name frame)].
  - intros Hall.
    rewrite search_func_default, search_frame_default.
    by rewrite (caller_frame_all_owned _ _ _ Hall).
Qed.

Lemma search_default_start_witness :
  search_frame ∅ Demo.demo "test" None (Some Demo.callee_frame)
    = search_frame ∅ Demo.demo "test" (Some Demo.test_frame) (Some Demo.callee_frame) /\
  search_func ∅ Demo.demo "test" None (Some Demo.callee_frame)
    = search_func ∅ Demo.demo "test" (Some Demo.test_frame) (Some Demo.callee_frame).
Proof.
  apply (search_default_start ∅ Demo.demo "test" (Some Demo.callee_frame)).
  vm_compute. reflexivity.
Defined.

(** X16. The answer of [is_internal_error] rests on the frames of the
    traceback alone, neither on their order nor on the line numbers: when
    every frame of one traceback occurs in another, an internal error for
    the first is one for the second. *)
Theorem is_internal_error_monotone
    (self : Value) (exc_tp : Value) (v1 v2 : Value)
    (tb1 tb2 : option TracebackType) :
  (forall entry, entry ∈ walk_tb tb1 ->
     exists entry', entry' ∈ walk_tb tb2 /\ entry'.1 = entry.1) ->
  is_internal_error self exc_tp v1 tb1 = true ->
  is_internal_error self exc_tp v2 tb2 = true.
Proof.
  intros Hsub. unfold is_internal_error.
  destruct (truthy exc_tp); cbn [negb]; [|done].
  rewrite !any_our_frame_Exists, !Exists_exists.
  intros (entry & Hin & Hown).
  destruct (Hsub entry Hin) as (entry' & Hin' & Hsame).
  exists entry'. split; [done | by rewrite Hsame].
Qed.

Lemma is_internal_error_monotone_witness :
  is_internal_error Demo.demo (VClass Demo.ValueError) VNone
    (Some Demo.internal_traceback) = true.
Proof.
  apply (is_internal_error_monotone Demo.demo (VClass Demo.ValueError) VNone VNone
           (Some (MkTraceback Demo.callee_frame 1 None))
           (Some Demo.internal_traceback)).
  - intros entry Hin. apply list_elem_of_singleton in Hin as ->.
    exists (Demo.callee_frame, 438). split; [|reflexivity].
    cbn. do 2 right. left.
  - vm_compute. reflexivity.
Defined.
